(** * The Python filter-plugin bridge of FogLAMP/Fledge

    A shallow embedding of
    [C/services/filter-plugin-interfaces/python/python_plugin_interface.cpp]:
    the two dispatchers [filter_plugin_ingest_fn] and [filter_plugin_init_fn],
    the start-up routine [PluginInterfaceInit] and the symbol resolver
    [PluginInterfaceResolveSymbol].

    The C++ code is a sequence of calls into the embedded CPython runtime, the
    logger and the native heap.  It is embedded as a state monad over a
    [World] that holds the bridge's two globals, the part of the interpreter
    state the bridge can observe, the native heap of reading sets and the
    chronological trace of every effect the code performs. *)

From Stdlib Require Import ZArith NArith Ascii String List.
From stdpp Require Import base option list strings gmap gmultiset.

Local Open Scope string_scope.
Local Open Scope list_scope.

(** ** Pointers and script-side objects *)

(** A [PyObject*] is either [NULL] ([None]) or the identity of an object. *)
Abbreviation PyObj := positive.
(** A native address: a [ReadingSet*], an [OUTPUT_HANDLE*] or an
    [OUTPUT_STREAM] function pointer. [NULL] is [None]. *)
Abbreviation addr := positive.

(** The exception kinds the runtime can leave in its error indicator. *)
Inductive PyExc :=
| AttributeError | ImportError | SystemError | ValueError
| ScriptException.

(** ** Logger *)

Inductive severity := Fatal | Error | Warn | Info | Debug.

(** The variadic arguments of a printf-style logger call. *)
Inductive log_arg :=
| LStr (s : string)
| LPtr (p : option PyObj)
| LInt (z : Z).

(** ** Effects *)

(** An argument of [PyObject_CallFunction], after its format string: ["s"]
    passes a C string, ["O"] an object pointer (which may be [NULL]). *)
Inductive CArg :=
| CStr (s : string)
| CObj (o : option PyObj).

(** Calls into the CPython C API. *)
Inductive pycall :=
| E_Py_DecodeLocale (s : string)
| E_Py_SetProgramName (s : string)
| E_PyMem_RawFree
| E_Py_Initialize
| E_PyEval_InitThreads
| E_PyEval_SaveThread
| E_PyGILState_Ensure
| E_PyGILState_Release
| E_PySys_GetObject (name : string)
| E_PyUnicode_FromString (s : string)
| E_PyList_Append (item : option PyObj)
| E_PySys_SetArgv (argv : list string)
| E_PyImport_ImportModule (name : string)
| E_PyObject_GetAttrString (o : PyObj) (name : string)
| E_PyCallable_Check (o : PyObj)
| E_PyErr_Occurred
| E_PyCapsule_New (p : option addr)
| E_PyObject_CallFunction (f : PyObj) (fmt : string) (args : list CArg)
| E_Py_DECREF (o : PyObj).

(** Script-side values the bridge creates: the items of a mapping, a mapping
    from field names to items, and the three kinds of object the bridge
    allocates (a text object, a capsule around a native pointer, a list of
    mappings). *)
Inductive PyItem :=
| PyUnicode (s : string)
| PyLong (z : Z)
| PyNumbers (vs : list (string * Z)).

Abbreviation PyDict := (list (string * PyItem)).

Inductive PyValue :=
| PyText (s : string)
| PyCapsule (p : addr)
| PyList (items : list PyDict).

Inductive event :=
| EvLog (sev : severity) (fmt : string) (args : list log_arg)
| EvPy (c : pycall)
| EvLogErrorMessage (pending : option PyExc)
| EvCreateReadingsList (content : PyValue) (res : PyObj)
| EvGetAllReadings (data : addr)
| EvDelete (data : addr).

(** ** Records and reading sets *)

(** Modelled from the spec: the [Reading] class ([reading.h] is not part of
    the sources).  A record is an immutable structured value made of named
    fields: a source identifier, a timestamp, sets of measured values. *)
Inductive FieldValue :=
| FText (s : string)
| FNumber (z : Z)
| FValues (vs : list (string * Z)).

Abbreviation Reading := (list (string * FieldValue)).

(** ** The world *)

Record World := mkWorld {
  (* the two globals of the translation unit *)
  pModule : option PyObj;
  sPluginName : string;
  (* the embedded runtime, as far as the bridge observes it *)
  gil_held : bool;
  err_indicator : option PyExc;
  owned : gmultiset PyObj;
  next_obj : PyObj;
  py_objects : gmap PyObj PyValue;
  sys_path : list string;
  (* native heap: the live ReadingSet objects *)
  heap : gmap addr (list Reading);
  (* every effect so far, oldest first *)
  trace : list event
}.

Definition set_pModule (m : option PyObj) (w : World) : World :=
  mkWorld m (sPluginName w) (gil_held w) (err_indicator w) (owned w)
          (next_obj w) (py_objects w) (sys_path w) (heap w) (trace w).
Definition set_sPluginName (s : string) (w : World) : World :=
  mkWorld (pModule w) s (gil_held w) (err_indicator w) (owned w)
          (next_obj w) (py_objects w) (sys_path w) (heap w) (trace w).
Definition set_gil_held (b : bool) (w : World) : World :=
  mkWorld (pModule w) (sPluginName w) b (err_indicator w) (owned w)
          (next_obj w) (py_objects w) (sys_path w) (heap w) (trace w).
Definition set_err_indicator (e : option PyExc) (w : World) : World :=
  mkWorld (pModule w) (sPluginName w) (gil_held w) e (owned w)
          (next_obj w) (py_objects w) (sys_path w) (heap w) (trace w).
Definition set_owned (o : gmultiset PyObj) (w : World) : World :=
  mkWorld (pModule w) (sPluginName w) (gil_held w) (err_indicator w) o
          (next_obj w) (py_objects w) (sys_path w) (heap w) (trace w).
Definition set_alloc (n : PyObj) (s : gmap PyObj PyValue) (w : World) : World :=
  mkWorld (pModule w) (sPluginName w) (gil_held w) (err_indicator w) (owned w)
          n s (sys_path w) (heap w) (trace w).
Definition set_sys_path (p : list string) (w : World) : World :=
  mkWorld (pModule w) (sPluginName w) (gil_held w) (err_indicator w) (owned w)
          (next_obj w) (py_objects w) p (heap w) (trace w).
Definition set_heap (h : gmap addr (list Reading)) (w : World) : World :=
  mkWorld (pModule w) (sPluginName w) (gil_held w) (err_indicator w) (owned w)
          (next_obj w) (py_objects w) (sys_path w) h (trace w).
Definition add_event (e : event) (w : World) : World :=
  mkWorld (pModule w) (sPluginName w) (gil_held w) (err_indicator w) (owned w)
          (next_obj w) (py_objects w) (sys_path w) (heap w) (trace w ++ [e]).

(** ** The monad: state passing, with undefined behaviour as an outcome *)

(** A call either returns a value and a world, or does not return: its
    behaviour is undefined (or a C++ exception leaves the function) in the
    world reached so far. *)
Inductive result (A : Type) :=
| Ret (a : A) (w : World)
| Undefined (w : World).
Arguments Ret {A} a w.
Arguments Undefined {A} w.

Definition M (A : Type) := World -> result A.

Definition ret {A} (a : A) : M A := fun w => Ret a w.
Definition bind {A B} (m : M A) (k : A -> M B) : M B :=
  fun w => match m w with
           | Ret a w' => k a w'
           | Undefined w' => Undefined w'
           end.
Definition undefined {A} : M A := fun w => Undefined w.
Definition get {A} (f : World -> A) : M A := fun w => Ret (f w) w.
Definition modify (f : World -> World) : M unit := fun w => Ret tt (f w).
Definition emit (e : event) : M unit := modify (add_event e).

Declare Scope bridge_scope.
Delimit Scope bridge_scope with bridge.
Notation "x <- m ;; k" := (bind m (fun x => k))
  (at level 100, m at next level, right associativity) : bridge_scope.
Notation "m ;; k" := (bind m (fun _ => k))
  (at level 100, right associativity) : bridge_scope.
Local Open Scope bridge_scope.

(** The world a call leaves behind, whether it returned or not. *)
Definition final_world {A} (r : result A) : World :=
  match r with Ret _ w => w | Undefined w => w end.

(** ** The environment of the bridge

    What the process environment, the module loader and the script answer.
    The bridge has no control over any of it; every theorem below holds for
    all environments. *)
Record Env := mkEnv {
  (* getenv(3): NULL when the variable is not set *)
  getenv : string -> option string;
  (* the module loader: sys.path and a module name to the imported module *)
  import_module : list string -> string -> option PyObj;
  (* attribute lookup on an object *)
  getattr : PyObj -> string -> option PyObj;
  (* whether an object can be called *)
  callable : PyObj -> bool;
  (* calling an object: the returned object, or None when it raises *)
  call : PyObj -> list CArg -> option PyObj
}.

(** ** Logger *)

Definition Logger_fatal (fmt : string) (args : list log_arg) : M unit :=
  emit (EvLog Fatal fmt args).
Definition Logger_error (fmt : string) (args : list log_arg) : M unit :=
  emit (EvLog Error fmt args).
Definition Logger_warn (fmt : string) (args : list log_arg) : M unit :=
  emit (EvLog Warn fmt args).
Definition Logger_debug (fmt : string) (args : list log_arg) : M unit :=
  emit (EvLog Debug fmt args).

(** ** The CPython C API, as the bridge uses it *)

(** The strong references the native code holds: an API call that returns a
    new reference adds one, [Py_DECREF] gives one back. *)
Definition acquire (o : PyObj) (w : World) : World :=
  set_owned ({[+ o +]} ⊎ owned w) w.
Definition release (o : PyObj) (w : World) : World :=
  set_owned (owned w ∖ {[+ o +]}) w.

(** A fresh object holding [v]; the caller owns the one reference to it. *)
Definition alloc (v : PyValue) : M PyObj :=
  fun w =>
    let o := next_obj w in
    Ret o (acquire o (set_alloc (Pos.succ o) (<[o := v]> (py_objects w)) w)).

Inductive PyGILState_STATE := PyGILState_LOCKED | PyGILState_UNLOCKED.

Definition PyGILState_Ensure : M PyGILState_STATE :=
  emit (EvPy E_PyGILState_Ensure);;
  held <- get gil_held;;
  modify (set_gil_held true);;
  ret (if held then PyGILState_LOCKED else PyGILState_UNLOCKED).

Definition PyGILState_Release (state : PyGILState_STATE) : M unit :=
  emit (EvPy E_PyGILState_Release);;
  match state with
  | PyGILState_LOCKED => ret tt
  | PyGILState_UNLOCKED => modify (set_gil_held false)
  end.

(** Sets the error indicator unless an error is already pending. *)
Definition raise_if_clear (e : PyExc) : M unit :=
  pending <- get err_indicator;;
  match pending with
  | Some _ => ret tt
  | None => modify (set_err_indicator (Some e))
  end.

(** Py_CLEAR(p): nothing for NULL, otherwise drop the reference; the
    variable is NULL afterwards (the returned value). *)
Definition Py_CLEAR (p : option PyObj) : M (option PyObj) :=
  match p with
  | None => ret None
  | Some o =>
      emit (EvPy (E_Py_DECREF o));;
      modify (release o);;
      ret None
  end.

Definition is_null {A} (p : option A) : bool :=
  match p with None => true | Some _ => false end.

Section Runtime.
Variable E : Env.

(** New reference to the attribute, or NULL with AttributeError set. *)
Definition PyObject_GetAttrString (o : PyObj) (name : string)
  : M (option PyObj) :=
  emit (EvPy (E_PyObject_GetAttrString o name));;
  match getattr E o name with
  | Some f => modify (acquire f);; ret (Some f)
  | None => modify (set_err_indicator (Some AttributeError));; ret None
  end.

Definition PyCallable_Check (o : PyObj) : M bool :=
  emit (EvPy (E_PyCallable_Check o));;
  ret (callable E o).

Definition PyErr_Occurred : M bool :=
  emit (EvPy E_PyErr_Occurred);;
  pending <- get err_indicator;;
  ret (negb (is_null pending)).

(** New capsule around a pointer; a NULL pointer is refused with
    ValueError. *)
Definition PyCapsule_New (p : option addr) : M (option PyObj) :=
  emit (EvPy (E_PyCapsule_New p));;
  match p with
  | None => modify (set_err_indicator (Some ValueError));; ret None
  | Some a => c <- alloc (PyCapsule a);; ret (Some c)
  end.

Definition is_null_arg (a : CArg) : bool :=
  match a with
  | CObj None => true
  | _ => false
  end.

(** PyObject_CallFunction(callable, format, ...): builds the argument tuple
    and calls. A NULL callable or a NULL object argument makes it return NULL
    without calling, with SystemError set unless an error is already
    pending. A call that raises returns NULL with the exception pending. The
    result is a new reference. *)
Definition PyObject_CallFunction (pFunc : option PyObj) (fmt : string)
    (args : list CArg) : M (option PyObj) :=
  match pFunc with
  | None => raise_if_clear SystemError;; ret None
  | Some f =>
      emit (EvPy (E_PyObject_CallFunction f fmt args));;
      if existsb is_null_arg args then
        raise_if_clear SystemError;; ret None
      else
        match call E f args with
        | Some r => modify (acquire r);; ret (Some r)
        | None => modify (set_err_indicator (Some ScriptException));; ret None
        end
  end.

(** New reference to the imported module, or NULL with ImportError set. *)
Definition PyImport_ImportModule (name : string) : M (option PyObj) :=
  emit (EvPy (E_PyImport_ImportModule name));;
  path <- get sys_path;;
  match import_module E path name with
  | Some m => modify (acquire m);; ret (Some m)
  | None => modify (set_err_indicator (Some ImportError));; ret None
  end.

End Runtime.

(** ** Helpers of the common interface, declared [extern] in the file *)

(** Modelled from the spec: [logErrorMessage] (defined in the common Python
    interface, not part of the sources) captures the runtime's pending error
    state, logs it, and leaves the error indicator clear. *)
Definition logErrorMessage : M unit :=
  pending <- get err_indicator;;
  emit (EvLogErrorMessage pending);;
  modify (set_err_indicator None).

(** Modelled from the spec: the record marshaller behind
    [createReadingsList] (defined in the common Python interface, not part of
    the sources) produces one mapping per record, with the record's fields
    under their names and with their values, in the order of the input. *)
Definition field_to_script (v : FieldValue) : PyItem :=
  match v with
  | FText s => PyUnicode s
  | FNumber z => PyLong z
  | FValues vs => PyNumbers vs
  end.

Definition reading_to_script (r : Reading) : PyDict :=
  map (fun kv => (fst kv, field_to_script (snd kv))) r.

Definition toScriptRepresentation (readings : list Reading) : list PyDict :=
  map reading_to_script readings.

(** Modelled from the spec: [createReadingsList] returns a new, non-null
    script list holding the marshalled records, also for an empty input. *)
Definition createReadingsList (readings : list Reading) : M (option PyObj) :=
  let content := PyList (toScriptRepresentation readings) in
  l <- alloc content;;
  emit (EvCreateReadingsList content l);;
  ret (Some l).

(** ** The native heap *)

(** ((ReadingSet * )data)->getAllReadings(): reading through a pointer to no
    live object is undefined. *)
Definition getAllReadings (data : addr) : M (list Reading) :=
  emit (EvGetAllReadings data);;
  h <- get heap;;
  match h !! data with
  | Some rs => ret rs
  | None => undefined
  end.

(** delete (ReadingSet * )data: deleting what is not a live object is
    undefined. *)
Definition delete_ReadingSet (data : addr) : M unit :=
  emit (EvDelete data);;
  h <- get heap;;
  match h !! data with
  | Some _ => modify (set_heap (delete data h))
  | None => undefined
  end.

(** The configuration category, through the one method the bridge calls. *)
Record ConfigCategory := mkConfig { itemsToJSON : string }.

Definition when (b : bool) (m : M unit) : M unit :=
  if b then m else ret tt.

(** ** The dispatchers *)

Section Bridge.
Variable E : Env.

(** [!pFunc || !PyCallable_Check(pFunc)]: the check runs only on a non-null
    pointer. *)
Definition null_or_not_callable (pFunc : option PyObj) : M bool :=
  match pFunc with
  | None => ret true
  | Some f => c <- PyCallable_Check E f;; ret (negb c)
  end.

Definition filter_plugin_ingest_fn (handle : option PyObj) (data : addr)
  : M unit :=
  m <- get pModule;;
  match m with
  | None =>
      name <- get sPluginName;;
      Logger_fatal
        "plugin_handle: plugin_ingest(): pModule is NULL for plugin '%s'"
        [LStr name]
  | Some pModule =>
      state <- PyGILState_Ensure;;
      (* Fetch required method in loaded object *)
      pFunc <- PyObject_GetAttrString E pModule "plugin_ingest";;
      name <- get sPluginName;;
      when (is_null pFunc)
        (Logger_fatal
           "Cannot find 'plugin_ingest' method in loaded python module '%s'"
           [LStr name]);;
      failure <- null_or_not_callable pFunc;;
      if failure then
        pending <- PyErr_Occurred;;
        when pending logErrorMessage;;
        Logger_fatal
          "Cannot call method plugin_ingestin loaded python module '%s'"
          [LStr name];;
        _ <- Py_CLEAR pFunc;;
        PyGILState_Release state
      else
        (* Create Python list of dicts as input to the filter *)
        readings <- getAllReadings data;;
        readingsList <- createReadingsList readings;;
        pReturn <- PyObject_CallFunction E pFunc "OO"
                     [CObj handle; CObj readingsList];;
        _ <- Py_CLEAR pFunc;;
        (* Remove input data *)
        delete_ReadingSet data;;
        (* Handle returned data *)
        (match pReturn with
         | None =>
             _ <- Py_CLEAR readingsList;;
             Logger_error
               "Called python script method plugin_ingest : error while getting result object, plugin '%s'"
               [LStr name];;
             logErrorMessage
         | Some _ =>
             Logger_debug
               "plugin_handle: plugin_ingest: got result object '%p', plugin '%s'"
               [LPtr pReturn; LStr name]
         end);;
        _ <- Py_CLEAR pReturn;;
        PyGILState_Release state
  end.

Definition filter_plugin_init_fn (config : ConfigCategory)
    (outHandle : option addr) (output : option addr) : M (option PyObj) :=
  m <- get pModule;;
  match m with
  | None =>
      name <- get sPluginName;;
      Logger_fatal
        "plugin_handle: plugin_init(): pModule is NULL for plugin '%s'"
        [LStr name];;
      ret None
  | Some pModule =>
      state <- PyGILState_Ensure;;
      (* Fetch required method in loaded object *)
      pFunc <- PyObject_GetAttrString E pModule "plugin_init";;
      name <- get sPluginName;;
      when (is_null pFunc)
        (Logger_fatal
           "Cannot find 'plugin_init' method in loaded python module '%s'"
           [LStr name]);;
      failure <- null_or_not_callable pFunc;;
      if failure then
        pending <- PyErr_Occurred;;
        when pending logErrorMessage;;
        Logger_fatal
          "Cannot call method plugin_init in loaded python module '%s'"
          [LStr name];;
        _ <- Py_CLEAR pFunc;;
        PyGILState_Release state;;
        ret None
      else
        (* Call Python method passing an object *)
        ingest_fn <- PyCapsule_New output;;
        ingest_ref <- PyCapsule_New outHandle;;
        pReturn <- PyObject_CallFunction E pFunc "sOO"
                     [CStr (itemsToJSON config); CObj ingest_ref;
                      CObj ingest_fn];;
        _ <- Py_CLEAR pFunc;;
        _ <- Py_CLEAR ingest_ref;;
        _ <- Py_CLEAR ingest_fn;;
        (* Handle returned data *)
        (match pReturn with
         | None =>
             Logger_error
               "Called python script method plugin_init : error while getting result object, plugin '%s'"
               [LStr name];;
             logErrorMessage
         | Some _ =>
             Logger_debug
               "plugin_handle: plugin_register_init(): got result object '%p', plugin '%s'"
               [LPtr pReturn; LStr name]
         end);;
        PyGILState_Release state;;
        ret pReturn
  end.

End Bridge.

(** ** std::string operations used at start-up *)

(** [size_t] is 64 bits wide; [npos] is its largest value. *)
Definition size_t_modulus : N := 2 ^ 64.
Definition npos : N := size_t_modulus - 1.
Definition size_t_add (a b : N) : N := ((a + b) mod size_t_modulus)%N.

Definition str_size (s : string) : N := N.of_nat (String.length s).

Fixpoint find_last_from (s : string) (c : ascii) (i : N) (acc : N) : N :=
  match s with
  | EmptyString => acc
  | String a s' =>
      find_last_from s' c (N.succ i) (if Ascii.eqb a c then i else acc)
  end.

(** s.find_last_of(c): the index of the last [c] in [s], or [npos]. *)
Definition find_last_of (s : string) (c : ascii) : N :=
  find_last_from s c 0%N npos.

(** s.substr(pos, len): throws std::out_of_range ([None]) when [pos] lies
    beyond the end; the length is cut at the end of the string. *)
Definition substr (s : string) (pos len : N) : option string :=
  if (str_size s <? pos)%N then None
  else Some (substring (N.to_nat pos)
                       (N.to_nat (N.min len (str_size s - pos)))
                       s).

(** std::string(const char * ): undefined for a null pointer. *)
Definition string_of_cstr (p : option string) : M string :=
  match p with
  | Some s => ret s
  | None => undefined
  end.

(** An exception leaving the function: the call does not return. *)
Definition or_throw {A} (x : option A) : M A :=
  match x with
  | Some a => ret a
  | None => undefined
  end.

Definition SHIM_SCRIPT_REL_PATH : string :=
  "/python/foglamp/plugins/common/shim/".
Definition SHIM_SCRIPT_NAME : string := "filter_shim".

(** ** Start-up calls of the C API *)

Definition Py_DecodeLocale (s : string) : M string :=
  emit (EvPy (E_Py_DecodeLocale s));; ret s.
Definition Py_SetProgramName (s : string) : M unit :=
  emit (EvPy (E_Py_SetProgramName s)).
Definition PyMem_RawFree : M unit := emit (EvPy E_PyMem_RawFree).
(** After Py_Initialize the calling thread holds the lock. *)
Definition Py_Initialize : M unit :=
  emit (EvPy E_Py_Initialize);; modify (set_gil_held true).
Definition PyEval_InitThreads : M unit := emit (EvPy E_PyEval_InitThreads).
(** PyEval_SaveThread gives the lock up. *)
Definition PyEval_SaveThread : M unit :=
  emit (EvPy E_PyEval_SaveThread);; modify (set_gil_held false).
(** sys.path lives in the world; the borrowed reference is not tracked. *)
Definition PySys_GetObject (name : string) : M unit :=
  emit (EvPy (E_PySys_GetObject name)).
(** A new text object; the caller owns the reference. *)
Definition PyUnicode_FromString (s : string) : M (option PyObj) :=
  emit (EvPy (E_PyUnicode_FromString s));;
  o <- alloc (PyText s);;
  ret (Some o).
(** PyList_Append(sysPath, item): appends without taking over the caller's
    reference; fails (which the bridge ignores) on a NULL item. *)
Definition PyList_Append_sysPath (item : option PyObj) : M unit :=
  emit (EvPy (E_PyList_Append item));;
  objs <- get py_objects;;
  match item ≫= (fun o => objs !! o) with
  | Some (PyText s) =>
      p <- get sys_path;; modify (set_sys_path (p ++ [s]))
  | _ => ret tt
  end.
Definition PySys_SetArgv (argv : list string) : M unit :=
  emit (EvPy (E_PySys_SetArgv argv)).

Section Startup.
Variable E : Env.

Definition PluginInterfaceInit (pluginName : string)
    (pluginPathName : string) : M (option PyObj) :=
  (* Set plugin name *)
  modify (set_sPluginName pluginName);;
  (* Get FOGLAMP_ROOT dir *)
  foglampRootDir <- string_of_cstr (getenv E "FOGLAMP_ROOT");;
  let path := foglampRootDir +:+ SHIM_SCRIPT_REL_PATH in
  let name := SHIM_SCRIPT_NAME in
  let found := find_last_of path "/"%char in
  pythonScript <- or_throw (substr path (size_t_add found 1) npos);;
  shimLayerPath <- or_throw (substr path 0 found);;
  (* Embedded Python 3.5 program name *)
  programName <- Py_DecodeLocale name;;
  Py_SetProgramName programName;;
  PyMem_RawFree;;
  let foglampPythonDir := foglampRootDir +:+ "/python" in
  (* Embedded Python 3.5 initialisation *)
  Py_Initialize;;
  PyEval_InitThreads;;
  PyEval_SaveThread;;
  state <- PyGILState_Ensure;;
  sName <- get sPluginName;;
  Logger_debug
    "SouthPlugin PythonInterface %s:%d: shimLayerPath=%s, foglampPythonDir=%s, plugin '%s'"
    [LStr "PluginInterfaceInit"; LInt 252; LStr shimLayerPath;
     LStr foglampPythonDir; LStr sName];;
  (* Set Python path for embedded Python 3.5 *)
  PySys_GetObject "path";;
  u1 <- PyUnicode_FromString shimLayerPath;;
  PyList_Append_sysPath u1;;
  u2 <- PyUnicode_FromString foglampPythonDir;;
  PyList_Append_sysPath u2;;
  (* Set sys.argv for embedded Python 3.5 *)
  argv0 <- Py_DecodeLocale "";;
  argv1 <- Py_DecodeLocale pluginName;;
  PySys_SetArgv [argv0; argv1];;
  (* Import Python script *)
  imported <- PyImport_ImportModule E name;;
  modify (set_pModule imported);;
  (* Check whether the Python module has been imported *)
  (match imported with
   | None =>
       pending <- PyErr_Occurred;;
       when pending logErrorMessage;;
       Logger_fatal
         "PluginInterfaceInit: cannot import Python 3.5 script '%s' from '%s' : pythonScript=%s, shimLayerPath=%s, plugin '%s'"
         [LStr name; LStr path; LStr pythonScript; LStr shimLayerPath;
          LStr sName]
   | Some _ =>
       Logger_debug
         "%s:%d: python module loaded successfully, pModule=%p, plugin '%s'"
         [LStr "PluginInterfaceInit"; LInt 292; LPtr imported; LStr sName]
   end);;
  PyGILState_Release state;;
  get pModule.

End Startup.

(** ** The symbol resolver *)

(** The functions whose addresses the resolver hands out. *)
Inductive fnptr :=
| Fn_plugin_info_fn
| Fn_filter_plugin_init_fn
| Fn_plugin_shutdown_fn
| Fn_plugin_reconfigure_fn
| Fn_filter_plugin_ingest_fn.

(** s.compare(t): negative, zero or positive; zero exactly when equal. *)
Definition compare (s t : string) : Z :=
  match String.compare s t with
  | Lt => (-1)%Z
  | Eq => 0%Z
  | Gt => 1%Z
  end.

(** C's [!n] on an int. *)
Definition lnot (n : Z) : bool := (n =? 0)%Z.

Definition PluginInterfaceResolveSymbol (_sym : string) : M (option fnptr) :=
  let sym := _sym in
  if lnot (compare sym "plugin_info") then
    ret (Some Fn_plugin_info_fn)
  else if lnot (compare sym "plugin_init") then
    ret (Some Fn_filter_plugin_init_fn)
  else if lnot (compare sym "plugin_shutdown") then
    ret (Some Fn_plugin_shutdown_fn)
  else if lnot (compare sym "plugin_reconfigure") then
    ret (Some Fn_plugin_reconfigure_fn)
  else if lnot (compare sym "plugin_ingest") then
    ret (Some Fn_filter_plugin_ingest_fn)
  else if lnot (compare sym "plugin_start") then
    Logger_warn
      "FilterPluginInterface currently does not support 'plugin_start'" [];;
    ret None
  else
    name <- get sPluginName;;
    Logger_fatal
      "FilterPluginInterfaceResolveSymbol can not find symbol '%s' in the Filter Python plugin interface library, loaded plugin '%s'"
      [LStr _sym; LStr name];;
    ret None.

(** ** Reading a trace *)

Definition is_fatal (e : event) : bool :=
  match e with EvLog Fatal _ _ => true | _ => false end.
Definition is_log (e : event) : bool :=
  match e with EvLog _ _ _ => true | _ => false end.
Definition is_drain (e : event) : bool :=
  match e with EvLogErrorMessage _ => true | _ => false end.
Definition is_ensure (e : event) : bool :=
  match e with EvPy E_PyGILState_Ensure => true | _ => false end.
Definition is_release (e : event) : bool :=
  match e with EvPy E_PyGILState_Release => true | _ => false end.
Definition is_call (e : event) : bool :=
  match e with EvPy (E_PyObject_CallFunction _ _ _) => true | _ => false end.
(** An event that touches the embedded runtime: a C API call, or a helper
    of the common interface that makes such calls. *)
Definition is_runtime_interaction (e : event) : bool :=
  match e with
  | EvPy _ | EvLogErrorMessage _ | EvCreateReadingsList _ _ => true
  | _ => false
  end.
(** An event that reads or frees the native batch at [d]. *)
Definition mentions_batch (d : addr) (e : event) : bool :=
  match e with
  | EvGetAllReadings d' | EvDelete d' => Pos.eqb d' d
  | _ => false
  end.
Definition is_delete (d : addr) (e : event) : bool :=
  match e with EvDelete d' => Pos.eqb d' d | _ => false end.

Definition count (p : event -> bool) (tr : list event) : nat :=
  length (List.filter p tr).

(** Whether the batch at [d] is freed before the script is called: of the
    calls and the frees of [d], the free comes first. *)
Fixpoint freed_before_call (d : addr) (tr : list event) : bool :=
  match tr with
  | [] => false
  | e :: tr' =>
      if is_delete d e then true
      else if is_call e then false
      else freed_before_call d tr'
  end.

(** Whether nothing reads or frees the batch at [d] once it is freed. *)
Fixpoint no_use_after_free (d : addr) (tr : list event) : bool :=
  match tr with
  | [] => true
  | e :: tr' =>
      if is_delete d e
      then forallb (fun e' => negb (mentions_batch d e')) tr'
      else no_use_after_free d tr'
  end.

(** The reference the native side keeps to a pointer it does not clear. *)
Definition kept (p : option PyObj) : gmultiset PyObj :=
  match p with
  | Some o => {[+ o +]}
  | None => ∅
  end.

(** The most recent event of a trace. *)
Fixpoint last_event (tr : list event) : option event :=
  match tr with
  | [] => None
  | [e] => Some e
  | _ :: tr' => last_event tr'
  end.

(** Whether [needle] occurs in [s]. *)
Definition mentions (needle s : string) : bool :=
  match String.index 0 needle s with Some _ => true | None => false end.

(** ** What the script answers to a dispatcher *)

(** The object an invocation produces, if any. *)
Definition invoke (E : Env) (f : PyObj) (args : list CArg) : option PyObj :=
  if existsb is_null_arg args then None else call E f args.

(** The arguments ingest passes: the handle and the readings list, which is
    the next object the runtime allocates. *)
Definition ingest_args (w : World) (handle : option PyObj) : list CArg :=
  [CObj handle; CObj (Some (next_obj w))].

(** The arguments init passes: the configuration text and the capsules
    around the output handle and the output stream; the capsule of the
    stream is allocated first, and a null pointer gets no capsule. *)
Definition init_capsules (w : World) (outHandle output : option addr)
  : option PyObj * option PyObj :=
  match output, outHandle with
  | Some _, Some _ => (Some (Pos.succ (next_obj w)), Some (next_obj w))
  | Some _, None => (None, Some (next_obj w))
  | None, Some _ => (Some (next_obj w), None)
  | None, None => (None, None)
  end.

Definition init_args (w : World) (config : ConfigCategory)
    (outHandle output : option addr) : list CArg :=
  let caps := init_capsules w outHandle output in
  [CStr (itemsToJSON config); CObj (fst caps); CObj (snd caps)].

(** The callable a dispatcher ends up with under the attribute [name]: the
    module must be loaded, the attribute found, and the object invocable. *)
Definition resolved (E : Env) (w : World) (name : string) : option PyObj :=
  match pModule w with
  | None => None
  | Some m =>
      match getattr E m name with
      | None => None
      | Some f => if callable E f then Some f else None
      end
  end.

(** What a call that went from [w] to [w'], appending [evs], looks like when
    it failed recoverably in the entry point [entry] with module [m] loaded:
    its one log entry is of error severity, names the entry point in its
    text and carries the plugin name; the pending error was captured once by
    [logErrorMessage] and the indicator is clear; the lock was released last
    and is held only if it was held before; the module is still loaded. *)
Definition recovered (w w' : World) (m : PyObj) (evs : list event)
    (entry : string) : Prop :=
  trace w' = trace w ++ evs
  /\ (exists fmt,
        List.filter is_log evs = [EvLog Error fmt [LStr (sPluginName w)]]
        /\ mentions entry fmt = true)
  /\ (exists exc, List.filter is_drain evs = [EvLogErrorMessage (Some exc)])
  /\ last_event evs = Some (EvPy E_PyGILState_Release)
  /\ err_indicator w' = None
  /\ gil_held w' = gil_held w
  /\ pModule w' = Some m
  /\ sPluginName w' = sPluginName w.

(** What a start-up that went from [w] to [w'], appending [evs] and
    returning [r], looks like with FOGLAMP_ROOT set to [root]: [r] is what
    importing the shim yields under the search path extended by the shim
    directory and the support directory, in that order; it is stored as the
    module handle; the plugin name is set; the lock is released last and not
    held afterwards. When the import failed there is exactly one fatal log
    entry, carrying the plugin name, the pending ImportError was captured
    once by [logErrorMessage] and the indicator is clear; when it succeeded
    nothing fatal was logged and no error captured. *)
Definition started (E : Env) (w w' : World) (pluginName root : string)
    (r : option PyObj) (evs : list event) : Prop :=
  trace w' = trace w ++ evs
  /\ r = import_module E
           (sys_path w ++ [root +:+ "/python/foglamp/plugins/common/shim";
                           root +:+ "/python"])
           SHIM_SCRIPT_NAME
  /\ pModule w' = r
  /\ sPluginName w' = pluginName
  /\ last_event evs = Some (EvPy E_PyGILState_Release)
  /\ gil_held w' = false
  /\ match r with
     | None =>
         (exists fmt args,
             List.filter is_fatal evs = [EvLog Fatal fmt args]
             /\ In (LStr pluginName) args)
         /\ List.filter is_drain evs = [EvLogErrorMessage (Some ImportError)]
         /\ err_indicator w' = None
     | Some _ =>
         List.filter is_fatal evs = [] /\ List.filter is_drain evs = []
     end.

(** ** A concrete bridge, for running the code *)

Module Demo.

Definition shim : PyObj := 1%positive.
Definition ingest_callable : PyObj := 5%positive.
Definition init_callable : PyObj := 6%positive.
Definition handle : PyObj := 7%positive.
Definition batch : addr := 3%positive.
Definition out_handle : addr := 11%positive.
Definition out_stream : addr := 12%positive.
(* the configuration text {"enable":"true"} *)
Definition dquote : string := String (Ascii.ascii_of_nat 34) EmptyString.
Definition config : ConfigCategory :=
  mkConfig ("{" +:+ dquote +:+ "enable" +:+ dquote +:+ ":"
                +:+ dquote +:+ "true" +:+ dquote +:+ "}").

Definition readings : list Reading :=
  [ [("asset", FText "pump1"); ("ts", FNumber 10);
     ("values", FValues [("rpm", 900%Z)])];
    [("asset", FText "pump2"); ("ts", FNumber 11)];
    [("asset", FText "pump1"); ("ts", FNumber 12)] ].

(** A script whose two entry points answer [answer]; [root] is the value
    of FOGLAMP_ROOT and [module] what importing the shim yields. *)
Definition env (root : option string) (module answer : option PyObj)
  : Env :=
  mkEnv (fun v => if String.eqb v "FOGLAMP_ROOT" then root else None)
        (fun _ _ => module)
        (fun _ name =>
           if String.eqb name "plugin_ingest" then Some ingest_callable
           else if String.eqb name "plugin_init" then Some init_callable
           else None)
        (fun _ => true)
        (fun _ _ => answer).

Definition loaded : World :=
  mkWorld (Some shim) "scale" false None ∅ 100%positive ∅ []
          {[ batch := readings ]} [].

Definition unloaded : World :=
  mkWorld None "scale" false None ∅ 100%positive ∅ []
          {[ batch := readings ]} [].

End Demo.

(** Scripts that lack what a dispatcher looks for. *)
Module Edge.

(** A module with no attributes at all. *)
Definition no_entry_points : Env :=
  mkEnv (fun _ => None) (fun _ _ => None) (fun _ _ => None)
        (fun _ => true) (fun _ _ => None).

(** A module whose attributes are found but cannot be called. *)
Definition not_invocable : Env :=
  mkEnv (fun _ => None) (fun _ _ => None)
        (fun _ _ => Some Demo.ingest_callable)
        (fun _ => false) (fun _ _ => None).

(** A batch pointer that refers to no live object. *)
Definition dangling : addr := 99%positive.

End Edge.

(** * Verification *)

(** ** Symbolic execution *)

Ltac unfold_bridge :=
  unfold filter_plugin_ingest_fn, filter_plugin_init_fn,
    PluginInterfaceInit, PluginInterfaceResolveSymbol,
    null_or_not_callable, when,
    PyObject_GetAttrString, PyCallable_Check, PyErr_Occurred, PyCapsule_New,
    PyObject_CallFunction, PyImport_ImportModule,
    PyGILState_Ensure, PyGILState_Release, Py_CLEAR,
    Py_DecodeLocale, Py_SetProgramName, PyMem_RawFree, Py_Initialize,
    PyEval_InitThreads, PyEval_SaveThread, PySys_GetObject,
    PyUnicode_FromString, PyList_Append_sysPath, PySys_SetArgv,
    raise_if_clear, logErrorMessage, createReadingsList, getAllReadings,
    delete_ReadingSet, string_of_cstr, or_throw,
    Logger_fatal, Logger_error, Logger_warn, Logger_debug, alloc,
    emit, modify, get, ret, bind, undefined.

Ltac wsimpl :=
  cbn [pModule sPluginName gil_held err_indicator owned next_obj py_objects
       sys_path heap trace
       set_pModule set_sPluginName set_gil_held set_err_indicator set_owned
       set_alloc set_sys_path set_heap add_event acquire release final_world
       existsb is_null_arg is_null orb negb mbind option_bind].

(** Resolves a branch of the code with what is known of its condition. *)
Ltac step :=
  match goal with
  | H : ?x = _ |- context [match ?y with _ => _ end] =>
      match y with context [x] => rewrite H end
  end.

Ltac run := unfold_bridge; wsimpl; repeat (step; wsimpl).

(** The answers a dispatcher call depends on, settled before the code is
    run: the lock, the error indicator, the module, the attribute, whether it
    can be called, the pointers passed in, and what the call yields. *)
Ltac state_cases w :=
  destruct (gil_held w) eqn:?; destruct (err_indicator w) eqn:?.

Ltac ingest_call_cases E f w handle :=
  destruct handle as [?h|];
  [ destruct (call E f [CObj (Some h); CObj (Some (next_obj w))])
      as [?r|] eqn:? | ].

Ltac init_call_cases E f w config outHandle output :=
  destruct outHandle as [?oh|], output as [?out|];
  [ destruct (call E f [CStr (itemsToJSON config);
                        CObj (Some (Pos.succ (next_obj w)));
                        CObj (Some (next_obj w))])
      as [?r|] eqn:? | .. ].

Ltac ingest_cases E w handle :=
  state_cases w;
  [ destruct (pModule w) as [?m|] eqn:?;
    [ destruct (getattr E m "plugin_ingest") as [?f|] eqn:?;
      [ destruct (callable E f) eqn:?;
        [ ingest_call_cases E f w handle | ] | ] | ] .. ];
  simplify_eq.

Ltac init_cases E w config outHandle output :=
  state_cases w;
  [ destruct (pModule w) as [?m|] eqn:?;
    [ destruct (getattr E m "plugin_init") as [?f|] eqn:?;
      [ destruct (callable E f) eqn:?;
        [ init_call_cases E f w config outHandle output | ] | ] | ] .. ];
  simplify_eq.

(** What [invoke] amounts to once the arguments are known. *)
Ltac invoke_known_in H :=
  unfold invoke, ingest_args, init_args, init_capsules in H;
  cbn [existsb is_null_arg orb fst snd] in H.

Ltac invoke_known :=
  unfold invoke, ingest_args, init_args, init_capsules in *;
  cbn [existsb is_null_arg orb fst snd] in *.

(** Uses what is known of the error indicator and the lock at entry. *)
Ltac pending_known :=
  repeat match goal with
         | H : err_indicator ?w = _ |- context [err_indicator ?w] =>
             rewrite H
         | H : gil_held ?w = _ |- context [gil_held ?w] =>
             rewrite H
         end.

(** Brings a trace into the form [old ++ [e1; ...; en]]. *)
Ltac flatten_trace := rewrite <- ?app_assoc; cbn [app].

(** ** Calls with no module loaded *)

(** C4: with the module handle null, ingest returns and init returns the
    null handle; the world changes by exactly one event, a log entry of fatal
    severity whose text names the entry point and whose argument is the
    plugin name. That event is no interaction with the runtime: the lock is
    not taken and no call of the C API is made. *)
Theorem null_module_is_inert (E : Env) (w : World) (handle : option PyObj)
    (data : addr) (config : ConfigCategory) (outHandle output : option addr) :
  pModule w = None ->
  (exists fmt,
      let entry := EvLog Fatal fmt [LStr (sPluginName w)] in
      filter_plugin_ingest_fn E handle data w = Ret tt (add_event entry w)
      /\ mentions "plugin_ingest" fmt = true
      /\ is_runtime_interaction entry = false)
  /\ (exists fmt,
      let entry := EvLog Fatal fmt [LStr (sPluginName w)] in
      filter_plugin_init_fn E config outHandle output w
      = Ret None (add_event entry w)
      /\ mentions "plugin_init" fmt = true
      /\ is_runtime_interaction entry = false).
Proof.
  intros Hnull; split.
  - unfold filter_plugin_ingest_fn, bind at 1, get at 1.
    rewrite Hnull. eexists; repeat split.
  - unfold filter_plugin_init_fn, bind at 1, get at 1.
    rewrite Hnull. eexists; repeat split.
Qed.

Lemma null_module_is_inert_witness :
  (exists fmt,
      filter_plugin_ingest_fn (Demo.env None None None) None Demo.batch
        Demo.unloaded
      = Ret tt (add_event (EvLog Fatal fmt [LStr "scale"]) Demo.unloaded)
      /\ mentions "plugin_ingest" fmt = true)
  /\ (exists fmt,
      filter_plugin_init_fn (Demo.env None None None) Demo.config None None
        Demo.unloaded
      = Ret None (add_event (EvLog Fatal fmt [LStr "scale"]) Demo.unloaded)
      /\ mentions "plugin_init" fmt = true).
Proof.
  destruct (null_module_is_inert (Demo.env None None None) Demo.unloaded
              None Demo.batch Demo.config None None eq_refl)
    as [(fmt1 & Hingest & Hname1 & _) (fmt2 & Hinit & Hname2 & _)].
  split; [exists fmt1 | exists fmt2]; split; assumption.
Defined.

(** ** The execution lock *)

(** C3: when either dispatcher takes the lock (the module is loaded), the
    call returns, and what it appends to the trace starts with the one
    acquisition, contains exactly one release, and ends with that release;
    the calling thread holds the lock afterwards only if it already held it
    before the call. This covers every path on which the call returns. *)
Theorem lock_released_exactly_once (E : Env) (w : World) (m : PyObj) :
  pModule w = Some m ->
  (forall handle data rs,
      heap w !! data = Some rs ->
      exists w' evs,
        filter_plugin_ingest_fn E handle data w = Ret tt w'
        /\ trace w' = trace w ++ evs
        /\ head evs = Some (EvPy E_PyGILState_Ensure)
        /\ count is_ensure evs = 1
        /\ count is_release evs = 1
        /\ last_event evs = Some (EvPy E_PyGILState_Release)
        /\ gil_held w' = gil_held w)
  /\ (forall config outHandle output,
      exists r w' evs,
        filter_plugin_init_fn E config outHandle output w = Ret r w'
        /\ trace w' = trace w ++ evs
        /\ head evs = Some (EvPy E_PyGILState_Ensure)
        /\ count is_ensure evs = 1
        /\ count is_release evs = 1
        /\ last_event evs = Some (EvPy E_PyGILState_Release)
        /\ gil_held w' = gil_held w).
Proof.
  intros Hm; split.
  - intros handle data rs Hlive.
    ingest_cases E w handle; run.
    all: eexists _, _; (split; [reflexivity|]); wsimpl; flatten_trace.
    all: repeat (split; [reflexivity|]); reflexivity.
  - intros config outHandle output.
    init_cases E w config outHandle output; run.
    all: eexists _, _, _; (split; [reflexivity|]); wsimpl; flatten_trace.
    all: repeat (split; [reflexivity|]); reflexivity.
Qed.

Lemma lock_released_exactly_once_witness :
  (exists w' evs,
      filter_plugin_ingest_fn (Demo.env None None (Some Demo.handle))
        (Some Demo.handle) Demo.batch Demo.loaded = Ret tt w'
      /\ trace w' = trace Demo.loaded ++ evs
      /\ head evs = Some (EvPy E_PyGILState_Ensure)
      /\ count is_ensure evs = 1
      /\ count is_release evs = 1
      /\ last_event evs = Some (EvPy E_PyGILState_Release)
      /\ gil_held w' = gil_held Demo.loaded)
  /\ (exists r w' evs,
      filter_plugin_init_fn (Demo.env None None None) Demo.config
        (Some Demo.out_handle) (Some Demo.out_stream) Demo.loaded = Ret r w'
      /\ trace w' = trace Demo.loaded ++ evs
      /\ head evs = Some (EvPy E_PyGILState_Ensure)
      /\ count is_ensure evs = 1
      /\ count is_release evs = 1
      /\ last_event evs = Some (EvPy E_PyGILState_Release)
      /\ gil_held w' = gil_held Demo.loaded).
Proof.
  split.
  - exact (proj1 (lock_released_exactly_once
                    (Demo.env None None (Some Demo.handle)) Demo.loaded
                    Demo.shim eq_refl)
             (Some Demo.handle) Demo.batch Demo.readings eq_refl).
  - exact (proj2 (lock_released_exactly_once
                    (Demo.env None None None) Demo.loaded
                    Demo.shim eq_refl)
             Demo.config (Some Demo.out_handle) (Some Demo.out_stream)).
Defined.

(** ** Ownership of the native batch *)

Ltac batch_events :=
  cbn [no_use_after_free freed_before_call is_delete is_call mentions_batch
       forallb negb andb count List.filter length];
  rewrite ?Pos.eqb_refl;
  cbn [no_use_after_free freed_before_call is_delete is_call mentions_batch
       forallb negb andb count List.filter length].

(** C1, as the code has it: a call of ingest never reads or frees the batch
    after freeing it and frees it at most once, on every path, also when it
    does not return. When the callable is resolved and the batch is live,
    the call returns and has freed the batch exactly once: the batch is read
    and marshalled, the script is called with the readings list, the
    reference to the callable is dropped, and only then the batch is
    deleted; nothing after that touches it, whether the call produced a
    result or not. *)
Theorem batch_freed_once_after_call (E : Env) (w : World)
    (handle : option PyObj) (data : addr) :
  (exists evs,
      trace (final_world (filter_plugin_ingest_fn E handle data w))
      = trace w ++ evs
      /\ no_use_after_free data evs = true
      /\ count (is_delete data) evs <= 1)
  /\ (forall m f rs,
      pModule w = Some m ->
      getattr E m "plugin_ingest" = Some f ->
      callable E f = true ->
      heap w !! data = Some rs ->
      exists w' l post,
        filter_plugin_ingest_fn E handle data w = Ret tt w'
        /\ trace w' = trace w
             ++ [EvPy E_PyGILState_Ensure;
                 EvPy (E_PyObject_GetAttrString m "plugin_ingest");
                 EvPy (E_PyCallable_Check f);
                 EvGetAllReadings data;
                 EvCreateReadingsList (PyList (toScriptRepresentation rs)) l;
                 EvPy (E_PyObject_CallFunction f "OO"
                         [CObj handle; CObj (Some l)]);
                 EvPy (E_Py_DECREF f);
                 EvDelete data]
             ++ post
        /\ forallb (fun e => negb (mentions_batch data e)) post = true
        /\ heap w' = delete data (heap w)).
Proof.
  split.
  - destruct (heap w !! data) eqn:Hlive.
    all: ingest_cases E w handle; run.
    all: eexists; (split; [wsimpl; flatten_trace; reflexivity|]).
    all: batch_events; split; [reflexivity | lia].
  - intros m f rs Hm Hattr Hcall Hlive.
    ingest_cases E w handle; run.
    all: eexists _, _, _; (split; [reflexivity|]); wsimpl; flatten_trace.
    all: split; [reflexivity|]; split; reflexivity.
Qed.

Lemma batch_freed_once_after_call_witness :
  exists w' l post,
    filter_plugin_ingest_fn (Demo.env None None None) (Some Demo.handle)
      Demo.batch Demo.loaded = Ret tt w'
    /\ trace w' = trace Demo.loaded
         ++ [EvPy E_PyGILState_Ensure;
             EvPy (E_PyObject_GetAttrString Demo.shim "plugin_ingest");
             EvPy (E_PyCallable_Check Demo.ingest_callable);
             EvGetAllReadings Demo.batch;
             EvCreateReadingsList
               (PyList (toScriptRepresentation Demo.readings)) l;
             EvPy (E_PyObject_CallFunction Demo.ingest_callable "OO"
                     [CObj (Some Demo.handle); CObj (Some l)]);
             EvPy (E_Py_DECREF Demo.ingest_callable);
             EvDelete Demo.batch]
         ++ post
    /\ forallb (fun e => negb (mentions_batch Demo.batch e)) post = true
    /\ heap w' = delete Demo.batch (heap Demo.loaded).
Proof.
  exact (proj2 (batch_freed_once_after_call (Demo.env None None None)
                  Demo.loaded (Some Demo.handle) Demo.batch)
           Demo.shim Demo.ingest_callable Demo.readings
           eq_refl eq_refl eq_refl eq_refl).
Defined.

(** C1, as stated, fails: with the callable resolved, the script is called
    while the native batch is still allocated; the batch is freed once, but
    after the call. *)
Lemma batch_freed_before_call_counterexample :
  let E := Demo.env None None (Some Demo.handle) in
  let tr :=
    trace (final_world
             (filter_plugin_ingest_fn E (Some Demo.handle) Demo.batch
                Demo.loaded)) in
  getattr E Demo.shim "plugin_ingest" = Some Demo.ingest_callable
  /\ callable E Demo.ingest_callable = true
  /\ count (is_delete Demo.batch) tr = 1
  /\ freed_before_call Demo.batch tr = false.
Proof. vm_compute. repeat split. Qed.

(** ** Script-side references *)

(** C2, as the code has it. Init: on every path the call returns and gives
    back every reference it took (the callable, the two capsules) except the
    one to the returned object, which it keeps: that object is the plugin
    handle. Ingest: on every path the call returns having given back the
    callable and the returned object, so that of all the references it took
    at most the one to the readings list is left; and whenever the
    invocation yields no result (and on the paths that never invoke),
    nothing is left at all. *)
Theorem transient_references_released (E : Env) (w : World) :
  (forall config outHandle output,
      exists r w',
        filter_plugin_init_fn E config outHandle output w = Ret r w'
        /\ owned w' = owned w ⊎ kept r)
  /\ (forall handle data rs,
      heap w !! data = Some rs ->
      exists w',
        filter_plugin_ingest_fn E handle data w = Ret tt w'
        /\ owned w ⊆ owned w'
        /\ owned w' ⊆ owned w ⊎ {[+ next_obj w +]}
        /\ ((forall m f,
               pModule w = Some m ->
               getattr E m "plugin_ingest" = Some f ->
               callable E f = true ->
               invoke E f (ingest_args w handle) = None) ->
            owned w' = owned w)).
Proof.
  split.
  - intros config outHandle output.
    init_cases E w config outHandle output; run.
    all: eexists _, _; (split; [reflexivity|]); wsimpl.
    all: unfold kept; multiset_solver.
  - intros handle data rs Hlive.
    ingest_cases E w handle; run.
    all: eexists; (split; [reflexivity|]); wsimpl.
    all: split; [multiset_solver|]; split; [multiset_solver|].
    all: intros Hnone; try multiset_solver.
    all: exfalso; specialize (Hnone _ _ eq_refl ltac:(eassumption) ltac:(eassumption)).
    all: invoke_known; congruence.
Qed.

Lemma transient_references_released_witness :
  exists w',
    filter_plugin_ingest_fn (Demo.env None None None) (Some Demo.handle)
      Demo.batch Demo.loaded = Ret tt w'
    /\ owned Demo.loaded ⊆ owned w'
    /\ owned w' ⊆ owned Demo.loaded ⊎ {[+ next_obj Demo.loaded +]}
    /\ ((forall m f,
           pModule Demo.loaded = Some m ->
           getattr (Demo.env None None None) m "plugin_ingest" = Some f ->
           callable (Demo.env None None None) f = true ->
           invoke (Demo.env None None None) f
             (ingest_args Demo.loaded (Some Demo.handle)) = None) ->
        owned w' = owned Demo.loaded).
Proof.
  exact (proj2 (transient_references_released (Demo.env None None None)
                  Demo.loaded)
           (Some Demo.handle) Demo.batch Demo.readings eq_refl).
Defined.

(** C2, as stated, fails: after a successful init the reference to the
    returned object has not been released; the call returns it as the
    handle and the native side holds one more reference than before. *)
Lemma init_releases_everything_counterexample :
  let E := Demo.env None None (Some Demo.handle) in
  let r :=
    filter_plugin_init_fn E Demo.config (Some Demo.out_handle)
      (Some Demo.out_stream) Demo.loaded in
  owned (final_world r) <> owned Demo.loaded
  /\ multiplicity Demo.handle (owned (final_world r)) = 1
  /\ multiplicity Demo.handle (owned Demo.loaded) = 0.
Proof.
  cbv zeta.
  assert (multiplicity Demo.handle
            (owned (final_world
                      (filter_plugin_init_fn
                         (Demo.env None None (Some Demo.handle)) Demo.config
                         (Some Demo.out_handle) (Some Demo.out_stream)
                         Demo.loaded))) = 1) as Hafter
      by (vm_compute; reflexivity).
  assert (multiplicity Demo.handle (owned Demo.loaded) = 0) as Hbefore
      by (vm_compute; reflexivity).
  split; [|split; assumption].
  intros Heq. rewrite Heq in Hafter. congruence.
Qed.

(** ** The handle init returns *)

(** An init call whose callable resolves and whose invocation produces an
    object returns that object. *)
Lemma init_success (E : Env) (w : World) (m f h : PyObj)
    (config : ConfigCategory) (outHandle output : option addr) :
  pModule w = Some m ->
  getattr E m "plugin_init" = Some f ->
  callable E f = true ->
  invoke E f (init_args w config outHandle output) = Some h ->
  exists w', filter_plugin_init_fn E config outHandle output w
             = Ret (Some h) w'.
Proof.
  intros Hm Hattr Hcall Hinv.
  state_cases w; init_call_cases E f w config outHandle output.
  all: invoke_known; try discriminate; rewrite Hinv in *; simplify_eq.
  all: run; eexists; reflexivity.
Qed.

(** C10: init returns a non-null handle exactly when the module is loaded,
    plugin_init is found and invocable, and the invocation produces an
    object; the handle is then that very object, whatever it is, and the
    native side holds one more reference to it than before the call: the
    reference the invocation returned is handed to the host, not released. *)
Theorem init_handle_is_script_result (E : Env) (w : World)
    (config : ConfigCategory) (outHandle output : option addr) :
  exists r w',
    filter_plugin_init_fn E config outHandle output w = Ret r w'
    /\ (forall h,
          r = Some h <->
          exists m f,
            pModule w = Some m
            /\ getattr E m "plugin_init" = Some f
            /\ callable E f = true
            /\ invoke E f (init_args w config outHandle output) = Some h)
    /\ (forall h,
          r = Some h ->
          multiplicity h (owned w') = S (multiplicity h (owned w))).
Proof.
  init_cases E w config outHandle output; run.
  all: eexists _, _; (split; [reflexivity|]); wsimpl.
  all: split;
    [ intros h'; split;
      [ intros Hr; simplify_eq; invoke_known; eauto 10
      | intros (m' & f' & Hm & Hattr & Hcall & Hinv);
        invoke_known; congruence ]
    | intros h' Hr; simplify_eq;
      match goal with
      | |- multiplicity ?h ?X = _ =>
          replace X with (owned w ⊎ {[+ h +]}) by multiset_solver
      end;
      rewrite multiplicity_disj_union, multiplicity_singleton;
      case_decide; first [lia | congruence] ].
Qed.

Lemma init_handle_is_script_result_witness :
  exists r w',
    filter_plugin_init_fn (Demo.env None None (Some Demo.handle)) Demo.config
      (Some Demo.out_handle) (Some Demo.out_stream) Demo.loaded = Ret r w'
    /\ r = Some Demo.handle.
Proof.
  destruct (init_handle_is_script_result
              (Demo.env None None (Some Demo.handle)) Demo.loaded Demo.config
              (Some Demo.out_handle) (Some Demo.out_stream))
    as (r & w' & Hret & Hiff & _).
  exists r, w'. split; [exact Hret|].
  apply Hiff. exists Demo.shim, Demo.init_callable.
  repeat split; reflexivity.
Defined.

(** ** Invocation failure *)

Ltac recovered_here :=
  unfold recovered; wsimpl; flatten_trace; pending_known;
  split; [reflexivity|];
  split; [eexists; split; reflexivity|];
  split; [eexists; reflexivity|];
  repeat (split; [first [reflexivity | assumption]|]); reflexivity.

Lemma ingest_failure_outcome (E : Env) (w : World) (m f : PyObj)
    (handle : option PyObj) (data : addr) (rs : list Reading) :
  pModule w = Some m ->
  getattr E m "plugin_ingest" = Some f ->
  callable E f = true ->
  heap w !! data = Some rs ->
  invoke E f (ingest_args w handle) = None ->
  exists w' evs,
    filter_plugin_ingest_fn E handle data w = Ret tt w'
    /\ recovered w w' m evs "plugin_ingest".
Proof.
  intros Hm Hattr Hcall Hlive Hinv.
  state_cases w; ingest_call_cases E f w handle.
  all: invoke_known_in Hinv; try congruence.
  all: run; eexists _, _; (split; [reflexivity|]); recovered_here.
Qed.

Lemma init_failure_outcome (E : Env) (w : World) (m f : PyObj)
    (config : ConfigCategory) (outHandle output : option addr) :
  pModule w = Some m ->
  getattr E m "plugin_init" = Some f ->
  callable E f = true ->
  invoke E f (init_args w config outHandle output) = None ->
  exists w' evs,
    filter_plugin_init_fn E config outHandle output w = Ret None w'
    /\ recovered w w' m evs "plugin_init".
Proof.
  intros Hm Hattr Hcall Hinv.
  state_cases w; init_call_cases E f w config outHandle output.
  all: invoke_known_in Hinv; try congruence.
  all: run; eexists _, _; (split; [reflexivity|]); recovered_here.
Qed.

(** C7: when the callable of a dispatcher is resolved and invocable but the
    invocation yields no result, the call returns the inert value (nothing
    for ingest, the null handle for init) and has failed recoverably in the
    sense of [recovered]: one log entry, of error severity and not fatal,
    naming the entry point and the plugin; the pending error captured by
    [logErrorMessage] and the indicator left clear; the lock released. The
    bridge stays usable: in the world the failed call leaves, an init whose
    invocation produces an object returns that object. *)
Theorem invocation_failure_is_recoverable (E : Env) (w : World)
    (m f : PyObj) :
  pModule w = Some m ->
  callable E f = true ->
  let usable w' :=
    forall E' f' h config' outHandle' output',
      getattr E' m "plugin_init" = Some f' ->
      callable E' f' = true ->
      invoke E' f' (init_args w' config' outHandle' output') = Some h ->
      exists w'',
        filter_plugin_init_fn E' config' outHandle' output' w'
        = Ret (Some h) w'' in
  (forall handle data rs,
      getattr E m "plugin_ingest" = Some f ->
      heap w !! data = Some rs ->
      invoke E f (ingest_args w handle) = None ->
      exists w' evs,
        filter_plugin_ingest_fn E handle data w = Ret tt w'
        /\ recovered w w' m evs "plugin_ingest"
        /\ usable w')
  /\ (forall config outHandle output,
      getattr E m "plugin_init" = Some f ->
      invoke E f (init_args w config outHandle output) = None ->
      exists w' evs,
        filter_plugin_init_fn E config outHandle output w = Ret None w'
        /\ recovered w w' m evs "plugin_init"
        /\ usable w').
Proof.
  intros Hm Hcall usable.
  assert (Husable : forall w' evs entry, recovered w w' m evs entry -> usable w').
  { intros w' evs entry Hrec E' f' h config' outHandle' output' Ha Hc Hi.
    eapply init_success; [apply Hrec | eassumption ..]. }
  split.
  - intros handle data rs Hattr Hlive Hinv.
    destruct (ingest_failure_outcome E w m f handle data rs
                Hm Hattr Hcall Hlive Hinv) as (w' & evs & Hret & Hrec).
    exists w', evs; eauto.
  - intros config outHandle output Hattr Hinv.
    destruct (init_failure_outcome E w m f config outHandle output
                Hm Hattr Hcall Hinv) as (w' & evs & Hret & Hrec).
    exists w', evs; eauto.
Qed.

Lemma invocation_failure_is_recoverable_witness :
  exists w' evs,
    filter_plugin_init_fn (Demo.env None None None) Demo.config
      (Some Demo.out_handle) (Some Demo.out_stream) Demo.loaded = Ret None w'
    /\ recovered Demo.loaded w' Demo.shim evs "plugin_init".
Proof.
  destruct (proj2 (invocation_failure_is_recoverable
                     (Demo.env None None None) Demo.loaded Demo.shim
                     Demo.init_callable eq_refl eq_refl)
              Demo.config (Some Demo.out_handle) (Some Demo.out_stream)
              eq_refl eq_refl) as (w' & evs & Hret & Hrec & _).
  exists w', evs. split; assumption.
Defined.

(** ** The symbol resolver *)

(** [!s.compare(t)] holds only of equal strings. *)
Lemma lnot_compare_eq (s t : string) : lnot (compare s t) = true -> s = t.
Proof.
  unfold lnot, compare.
  destruct (String.compare s t) eqn:Hcmp; try discriminate.
  intros _. now apply String.compare_eq_iff.
Qed.

Ltac other_name Hother :=
  match goal with
  | |- context [lnot (compare ?s ?t)] =>
      let Hcmp := fresh "Hcmp" in
      destruct (lnot (compare s t)) eqn:Hcmp;
      [ apply lnot_compare_eq in Hcmp; exfalso; apply Hother;
        rewrite Hcmp; cbn [In]; tauto | ]
  end.

(** C5: the resolver maps each of the five supported names to the address
    of its dispatcher and leaves the world as it is; it maps "plugin_start"
    to null and logs one warning; it maps every other string to null and
    logs one fatal entry carrying the symbol and the plugin name. Nothing
    else changes, and the answer depends on the name alone. *)
Theorem resolve_symbol_is_closed_mapping (w : World) :
  PluginInterfaceResolveSymbol "plugin_info" w
  = Ret (Some Fn_plugin_info_fn) w
  /\ PluginInterfaceResolveSymbol "plugin_init" w
     = Ret (Some Fn_filter_plugin_init_fn) w
  /\ PluginInterfaceResolveSymbol "plugin_shutdown" w
     = Ret (Some Fn_plugin_shutdown_fn) w
  /\ PluginInterfaceResolveSymbol "plugin_reconfigure" w
     = Ret (Some Fn_plugin_reconfigure_fn) w
  /\ PluginInterfaceResolveSymbol "plugin_ingest" w
     = Ret (Some Fn_filter_plugin_ingest_fn) w
  /\ (exists fmt,
        PluginInterfaceResolveSymbol "plugin_start" w
        = Ret None (add_event (EvLog Warn fmt []) w))
  /\ (forall sym,
        ~ In sym ["plugin_info"; "plugin_init"; "plugin_shutdown";
                  "plugin_reconfigure"; "plugin_ingest"; "plugin_start"] ->
        exists fmt,
          PluginInterfaceResolveSymbol sym w
          = Ret None
              (add_event (EvLog Fatal fmt [LStr sym; LStr (sPluginName w)])
                 w)).
Proof.
  do 5 (split; [reflexivity|]).
  split; [eexists; reflexivity|].
  intros sym Hother. unfold PluginInterfaceResolveSymbol.
  do 6 other_name Hother.
  eexists; reflexivity.
Qed.

Lemma resolve_symbol_is_closed_mapping_witness :
  exists fmt,
    PluginInterfaceResolveSymbol "not_a_real_symbol" Demo.unloaded
    = Ret None
        (add_event
           (EvLog Fatal fmt [LStr "not_a_real_symbol"; LStr "scale"])
           Demo.unloaded).
Proof.
  refine (proj2 (proj2 (proj2 (proj2 (proj2 (proj2
            (resolve_symbol_is_closed_mapping Demo.unloaded))))))
            "not_a_real_symbol" _).
  cbn [In]. intros Hin.
  repeat (destruct Hin as [Hin | Hin]; [discriminate Hin|]).
  exact Hin.
Defined.

(** ** The record marshaller *)

Section Marshaller.

Lemma lookup_map {A B : Type} (f : A -> B) (l : list A) (i : nat) :
  map f l !! i = f <$> (l !! i).
Proof.
  revert i; induction l as [|a l IH]; intros [|i]; cbn; auto.
Qed.

Lemma field_to_script_inj (v v' : FieldValue) :
  field_to_script v = field_to_script v' -> v = v'.
Proof. destruct v, v'; cbn; congruence. Qed.

Lemma reading_to_script_field (r : Reading) (j : nat) (k : string)
    (v : FieldValue) :
  r !! j = Some (k, v) ->
  reading_to_script r !! j = Some (k, field_to_script v).
Proof.
  intros Hj. unfold reading_to_script. now rewrite lookup_map, Hj.
Qed.

Lemma reading_to_script_inj (r r' : Reading) :
  reading_to_script r = reading_to_script r' -> r = r'.
Proof.
  revert r'; induction r as [|[k v] r IH]; intros [|[k' v'] r']; cbn;
    try discriminate; auto.
  intros [= -> Hv Hr]. apply field_to_script_inj in Hv. subst.
  f_equal. now apply IH.
Qed.

End Marshaller.

(** C6: for every batch, the marshalled list has as many mappings as the
    batch has records; the mapping at each position is that of the record at
    the same position, with as many fields, each under its name and with its
    value, in the record's order; distinct records give distinct mappings,
    so nothing of a record is lost. [createReadingsList] returns a non-null
    script list holding exactly these mappings; for the empty batch that is
    a non-null list of no elements. *)
Theorem marshaller_preserves_records (readings : list Reading) (w : World) :
  length (toScriptRepresentation readings) = length readings
  /\ (forall i r,
        readings !! i = Some r ->
        toScriptRepresentation readings !! i = Some (reading_to_script r)
        /\ length (reading_to_script r) = length r
        /\ forall j k v,
             r !! j = Some (k, v) ->
             reading_to_script r !! j = Some (k, field_to_script v))
  /\ (forall r r', reading_to_script r = reading_to_script r' -> r = r')
  /\ (exists l w',
        createReadingsList readings w = Ret (Some l) w'
        /\ py_objects w' !! l
           = Some (PyList (toScriptRepresentation readings)))
  /\ (exists l w',
        createReadingsList [] w = Ret (Some l) w'
        /\ py_objects w' !! l = Some (PyList [])).
Proof.
  split; [unfold toScriptRepresentation; apply length_map|].
  split.
  { intros i r Hi. split; [|split].
    - unfold toScriptRepresentation. now rewrite lookup_map, Hi.
    - unfold reading_to_script. apply length_map.
    - intros j k v. apply reading_to_script_field. }
  split; [exact reading_to_script_inj|].
  split.
  - eexists _, _. split; [reflexivity|].
    wsimpl. apply lookup_insert_eq.
  - eexists _, _. split; [reflexivity|].
    wsimpl. apply lookup_insert_eq.
Qed.

Lemma marshaller_preserves_records_witness :
  toScriptRepresentation Demo.readings !! 1
  = Some [("asset", PyUnicode "pump2"); ("ts", PyLong 11)]
  /\ reading_to_script [("asset", FText "pump2"); ("ts", FNumber 11)] !! 1
     = Some ("ts", PyLong 11).
Proof.
  destruct (proj1 (proj2 (marshaller_preserves_records Demo.readings
                            Demo.loaded))
              1 [("asset", FText "pump2"); ("ts", FNumber 11)] eq_refl)
    as (Hrec & _ & Hfield).
  split.
  - exact Hrec.
  - exact (Hfield 1 "ts" (FNumber 11) eq_refl).
Defined.

(** ** Start-up *)

Section Strings.

Lemma append_assoc (s t u : string) : (s +:+ t) +:+ u = s +:+ (t +:+ u).
Proof.
  induction s as [|a s IH]; [reflexivity|].
  change (String a ((s +:+ t) +:+ u) = String a (s +:+ (t +:+ u))).
  now rewrite IH.
Qed.

Lemma length_append (s t : string) :
  String.length (s +:+ t) = String.length s + String.length t.
Proof.
  induction s as [|a s IH]; [reflexivity|].
  change (S (String.length (s +:+ t))
          = S (String.length s + String.length t)).
  now rewrite IH.
Qed.

Lemma substring_prefix (s t : string) :
  substring 0 (String.length s) (s +:+ t) = s.
Proof.
  induction s as [|a s IH].
  - now destruct t.
  - change (String a (substring 0 (String.length s) (s +:+ t))
            = String a s).
    now rewrite IH.
Qed.

(** The last [c] of a string that ends in [c] is its last character. *)
Lemma find_last_from_snoc (s : string) (c : ascii) (i acc : N) :
  find_last_from (s +:+ String c "") c i acc = (i + str_size s)%N.
Proof.
  revert i acc; induction s as [|a s IH]; intros i acc.
  - change ((if Ascii.eqb c c then i else acc) = (i + 0)%N).
    rewrite Ascii.eqb_refl. lia.
  - change (find_last_from (s +:+ String c "") c (N.succ i)
              (if Ascii.eqb a c then i else acc)
            = (i + str_size (String a s))%N).
    rewrite IH. unfold str_size; cbn [String.length]. lia.
Qed.

(** [find_last_of] answers [npos] or a position inside the string. *)
Lemma find_last_from_bound (s : string) (c : ascii) (i acc : N) :
  find_last_from s c i acc = acc
  \/ (find_last_from s c i acc < i + str_size s)%N.
Proof.
  revert i acc; induction s as [|a s IH]; intros i acc; [now left|].
  cbn [find_last_from].
  destruct (IH (N.succ i) (if Ascii.eqb a c then i else acc)) as [-> | Hlt].
  - destruct (Ascii.eqb a c); [right | now left].
    unfold str_size; cbn [String.length]. lia.
  - right. unfold str_size in *; cbn [String.length]. lia.
Qed.

(** Neither [substr] of the start-up code can throw. *)
Lemma substr_after_last (s : string) (c : ascii) :
  is_Some (substr s (size_t_add (find_last_of s c) 1) npos).
Proof.
  unfold substr.
  assert ((size_t_add (find_last_of s c) 1 <= str_size s)%N) as Hpos.
  { unfold size_t_add, find_last_of.
    destruct (find_last_from_bound s c 0 npos) as [-> | Hlt].
    - vm_compute (((npos + 1) mod size_t_modulus)%N). lia.
    - etransitivity; [apply N.Div0.mod_le|]. lia. }
  apply N.ltb_ge in Hpos. rewrite Hpos. eauto.
Qed.

(** The directory of the shim: the path without its final slash. *)
Lemma substr_shim_dir (root : string) :
  substr (root +:+ SHIM_SCRIPT_REL_PATH) 0
    (find_last_of (root +:+ SHIM_SCRIPT_REL_PATH) "/")
  = Some (root +:+ "/python/foglamp/plugins/common/shim").
Proof.
  set (dir := root +:+ "/python/foglamp/plugins/common/shim").
  assert (root +:+ SHIM_SCRIPT_REL_PATH = dir +:+ "/") as ->
    by (unfold dir; now rewrite append_assoc).
  unfold find_last_of. rewrite find_last_from_snoc.
  unfold substr.
  assert ((str_size (dir +:+ "/") <? 0)%N = false) as ->
    by (apply N.ltb_ge; lia).
  f_equal.
  replace (N.to_nat (N.min (0 + str_size dir) (str_size (dir +:+ "/") - 0)))
    with (String.length dir).
  - apply substring_prefix.
  - unfold str_size. rewrite length_append. cbn [String.length]. lia.
Qed.

End Strings.

(** With FOGLAMP_ROOT set, start-up returns, and does as [started] says. *)
Lemma startup_outcome (E : Env) (w : World)
    (pluginName pluginPathName root : string) :
  getenv E "FOGLAMP_ROOT" = Some root ->
  exists r w' evs,
    PluginInterfaceInit E pluginName pluginPathName w = Ret r w'
    /\ started E w w' pluginName root r evs.
Proof.
  intros Hroot.
  pose proof (substr_shim_dir root) as Hdir.
  destruct (substr_after_last (root +:+ SHIM_SCRIPT_REL_PATH) "/")
    as [script Hscript].
  unfold started.
  set (dir := root +:+ "/python/foglamp/plugins/common/shim") in *.
  assert (sys_path w ++ [dir; root +:+ "/python"]
          = (sys_path w ++ [dir]) ++ [root +:+ "/python"]) as Hpath
    by now rewrite <- app_assoc.
  rewrite Hpath.
  destruct (import_module E ((sys_path w ++ [dir]) ++ [root +:+ "/python"])
              SHIM_SCRIPT_NAME) as [shim|] eqn:Himport.
  all: unfold_bridge; wsimpl;
    repeat (first [step | rewrite lookup_insert_eq]; wsimpl).
  all: eexists _, _, _; (split; [reflexivity|]); wsimpl; flatten_trace.
  all: repeat (split; [reflexivity|]).
  - split; reflexivity.
  - split; [|split; reflexivity].
    eexists _, _; split; [reflexivity|]. cbn [In]. tauto.
Qed.

Lemma ingest_without_module (E : Env) (w : World) (handle : option PyObj)
    (data : addr) :
  pModule w = None ->
  exists fmt,
    filter_plugin_ingest_fn E handle data w
    = Ret tt (add_event (EvLog Fatal fmt [LStr (sPluginName w)]) w).
Proof.
  intros Hnull. unfold filter_plugin_ingest_fn, bind at 1, get at 1.
  rewrite Hnull. eexists; reflexivity.
Qed.

Lemma init_without_module (E : Env) (w : World) (config : ConfigCategory)
    (outHandle output : option addr) :
  pModule w = None ->
  exists fmt,
    filter_plugin_init_fn E config outHandle output w
    = Ret None (add_event (EvLog Fatal fmt [LStr (sPluginName w)]) w).
Proof.
  intros Hnull. unfold filter_plugin_init_fn, bind at 1, get at 1.
  rewrite Hnull. eexists; reflexivity.
Qed.

(** C8: with the root directory known, start-up returns and does as
    [started] says: the returned handle is the result of the import and is
    what the bridge stores; a failed import is captured and logged by
    [logErrorMessage], followed by one fatal entry carrying the plugin name,
    and the null handle is returned. The bridge is then inert: in the world
    start-up leaves, every ingest and every init call only logs one fatal
    entry and returns (the null handle, for init). *)
Theorem startup_import_outcome (E : Env) (w : World)
    (pluginName pluginPathName root : string) :
  getenv E "FOGLAMP_ROOT" = Some root ->
  exists r w' evs,
    PluginInterfaceInit E pluginName pluginPathName w = Ret r w'
    /\ started E w w' pluginName root r evs
    /\ (r = None ->
        forall E' handle data config outHandle output,
          (exists fmt,
              filter_plugin_ingest_fn E' handle data w'
              = Ret tt (add_event (EvLog Fatal fmt [LStr pluginName]) w'))
          /\ (exists fmt,
              filter_plugin_init_fn E' config outHandle output w'
              = Ret None (add_event (EvLog Fatal fmt [LStr pluginName]) w'))).
Proof.
  intros Hroot.
  destruct (startup_outcome E w pluginName pluginPathName root Hroot)
    as (r & w' & evs & Hret & Hstarted).
  exists r, w', evs. split; [exact Hret|]. split; [exact Hstarted|].
  destruct Hstarted as (_ & _ & Hmodule & Hname & _).
  intros ->. intros E' handle data config outHandle output.
  rewrite <- Hname. split.
  - now apply ingest_without_module.
  - now apply init_without_module.
Qed.

Lemma startup_import_outcome_witness :
  exists r w' evs,
    PluginInterfaceInit (Demo.env (Some "/usr/local/foglamp") None None)
      "scale" "/usr/local/foglamp/python/foglamp/plugins/filter/scale"
      Demo.unloaded = Ret r w'
    /\ started (Demo.env (Some "/usr/local/foglamp") None None)
         Demo.unloaded w' "scale" "/usr/local/foglamp" r evs.
Proof.
  destruct (startup_import_outcome
              (Demo.env (Some "/usr/local/foglamp") None None) Demo.unloaded
              "scale" "/usr/local/foglamp/python/foglamp/plugins/filter/scale"
              "/usr/local/foglamp" eq_refl)
    as (r & w' & evs & Hret & Hstarted & _).
  exists r, w', evs. split; assumption.
Defined.

(** C9, on the code: with FOGLAMP_ROOT not set, start-up constructs a
    std::string from the null pointer that getenv returns. The call has set
    the plugin name and nothing else when its behaviour becomes undefined:
    nothing is logged, no handle is returned. *)
Theorem startup_without_root_is_undefined (E : Env) (w : World)
    (pluginName pluginPathName : string) :
  getenv E "FOGLAMP_ROOT" = None ->
  PluginInterfaceInit E pluginName pluginPathName w
  = Undefined (set_sPluginName pluginName w).
Proof.
  intros Hroot. unfold PluginInterfaceInit, bind, modify, string_of_cstr.
  rewrite Hroot. reflexivity.
Qed.

Lemma startup_without_root_is_undefined_witness :
  PluginInterfaceInit (Demo.env None (Some Demo.shim) None) "scale"
    "/usr/local/foglamp/python/foglamp/plugins/filter/scale" Demo.unloaded
  = Undefined (set_sPluginName "scale" Demo.unloaded)
  /\ trace (set_sPluginName "scale" Demo.unloaded) = [].
Proof.
  split.
  - exact (startup_without_root_is_undefined
             (Demo.env None (Some Demo.shim) None) Demo.unloaded "scale"
             "/usr/local/foglamp/python/foglamp/plugins/filter/scale"
             eq_refl).
  - reflexivity.
Defined.

(** ** Running the code *)

(** Init with a configuration, an output handle and an output stream, on a
    script that answers with an object: that object is the handle. *)
Example scenario_init_returns_handle :
  match filter_plugin_init_fn (Demo.env None None (Some Demo.handle))
          Demo.config (Some Demo.out_handle) (Some Demo.out_stream)
          Demo.loaded with
  | Ret r _ => r = Some Demo.handle
  | Undefined _ => False
  end.
Proof. vm_compute. reflexivity. Qed.

(** Ingest of a batch of three records: the script is called with a list of
    three mappings in the order of the batch, and the batch is gone. *)
Example scenario_ingest_three_records :
  let w' :=
    final_world
      (filter_plugin_ingest_fn (Demo.env None None (Some Demo.handle))
         (Some Demo.handle) Demo.batch Demo.loaded) in
  List.filter is_call (trace w')
  = [EvPy (E_PyObject_CallFunction Demo.ingest_callable "OO"
             [CObj (Some Demo.handle); CObj (Some 100%positive)])]
  /\ py_objects w' !! 100%positive
     = Some (PyList
               [ [("asset", PyUnicode "pump1"); ("ts", PyLong 10);
                  ("values", PyNumbers [("rpm", 900%Z)])];
                 [("asset", PyUnicode "pump2"); ("ts", PyLong 11)];
                 [("asset", PyUnicode "pump1"); ("ts", PyLong 12)] ])
  /\ heap w' !! Demo.batch = None.
Proof. vm_compute. repeat split. Qed.

(** The same call leaves the native side with its reference to the
    readings list: the list is cleared only when the invocation fails. *)
Example ingest_success_keeps_readings_list :
  let w' :=
    final_world
      (filter_plugin_ingest_fn (Demo.env None None (Some Demo.handle))
         (Some Demo.handle) Demo.batch Demo.loaded) in
  multiplicity 100%positive (owned w') = 1
  /\ multiplicity 100%positive (owned Demo.loaded) = 0
  /\ count (fun e => match e with
                     | EvPy (E_Py_DECREF o) => Pos.eqb o 100
                     | _ => false
                     end) (trace w') = 0.
Proof. vm_compute. repeat split. Qed.

(** A module without plugin_ingest: ingest logs fatally, calls nothing and
    leaves the batch alone. *)
Example scenario_missing_ingest :
  let E := mkEnv (fun _ => None) (fun _ _ => None) (fun _ _ => None)
                 (fun _ => true) (fun _ _ => Some Demo.handle) in
  let w' :=
    final_world
      (filter_plugin_ingest_fn E (Some Demo.handle) Demo.batch Demo.loaded) in
  count is_fatal (trace w') = 2
  /\ count is_call (trace w') = 0
  /\ last_event (trace w') = Some (EvPy E_PyGILState_Release)
  /\ heap w' !! Demo.batch = Some Demo.readings.
Proof. vm_compute. repeat split. Qed.

(** * Further properties of the bridge *)
(** ** Paths on which no callable is resolved *)




(** X2: With the module loaded but no callable resolved, ingest returns for any
    batch pointer and leaves the native heap as it is: the batch is neither
    read nor freed, nothing is marshalled and the script is not called. The
    reference to a found but non-invocable attribute is given back, the
    error indicator is clear afterwards, and the lock is as before. A
    missing attribute costs two fatal log entries, a non-invocable one a
    single entry. *)
Theorem ingest_unresolved_leaves_batch (E : Env) (w : World)
    (handle : option PyObj) (data : addr) (m : PyObj) :
  pModule w = Some m ->
  resolved E w "plugin_ingest" = None ->
  exists w' evs,
    filter_plugin_ingest_fn E handle data w = Ret tt w'
    /\ trace w' = trace w ++ evs
    /\ heap w' = heap w
    /\ py_objects w' = py_objects w
    /\ owned w' = owned w
    /\ count (mentions_batch data) evs = 0
    /\ count is_call evs = 0
    /\ count is_fatal evs
       = match getattr E m "plugin_ingest" with Some _ => 1 | None => 2 end
    /\ err_indicator w' = None
    /\ gil_held w' = gil_held w.
Proof.
  intros Hm Hnone. unfold resolved in Hnone. rewrite Hm in Hnone.
  state_cases w.
  all: destruct (getattr E m "plugin_ingest") as [f|] eqn:Hattr;
    [ destruct (callable E f) eqn:Hcall; [discriminate Hnone|] | ].
  all: run; eexists _, _; (split; [reflexivity|]); wsimpl; flatten_trace.
  all: pending_known.
  all: do 3 (split; [reflexivity|]); split; [multiset_solver|].
  all: repeat (split; [reflexivity|]); reflexivity.
Qed.

Lemma ingest_unresolved_leaves_batch_witness :
  exists w' evs,
    filter_plugin_ingest_fn Edge.no_entry_points (Some Demo.handle)
      Edge.dangling Demo.loaded = Ret tt w'
    /\ trace w' = trace Demo.loaded ++ evs
    /\ heap w' = heap Demo.loaded
    /\ count is_fatal evs = 2.
Proof.
  destruct (ingest_unresolved_leaves_batch Edge.no_entry_points Demo.loaded
              (Some Demo.handle) Edge.dangling Demo.shim eq_refl eq_refl)
    as (w' & evs & Hret & Htrace & Hheap & _ & _ & _ & _ & Hfatal & _).
  exists w', evs. repeat split; assumption.
Defined.


(** X3: With the module loaded but no callable resolved, init returns the null
    handle without wrapping the output handle or the output stream: no
    capsule is created, no object allocated, the script is not called, no
    reference is left behind, the error indicator is clear afterwards, and
    the lock is as before. A missing attribute costs two fatal log entries,
    a non-invocable one a single entry. *)
Theorem init_unresolved_creates_nothing (E : Env) (w : World)
    (config : ConfigCategory) (outHandle output : option addr) (m : PyObj) :
  pModule w = Some m ->
  resolved E w "plugin_init" = None ->
  exists w' evs,
    filter_plugin_init_fn E config outHandle output w = Ret None w'
    /\ trace w' = trace w ++ evs
    /\ next_obj w' = next_obj w
    /\ py_objects w' = py_objects w
    /\ owned w' = owned w
    /\ count is_call evs = 0
    /\ count is_fatal evs
       = match getattr E m "plugin_init" with Some _ => 1 | None => 2 end
    /\ err_indicator w' = None
    /\ gil_held w' = gil_held w.
Proof.
  intros Hm Hnone. unfold resolved in Hnone. rewrite Hm in Hnone.
  state_cases w.
  all: destruct (getattr E m "plugin_init") as [f|] eqn:Hattr;
    [ destruct (callable E f) eqn:Hcall; [discriminate Hnone|] | ].
  all: run; eexists _, _; (split; [reflexivity|]); wsimpl; flatten_trace.
  all: pending_known.
  all: do 3 (split; [reflexivity|]); split; [multiset_solver|].
  all: repeat (split; [reflexivity|]); reflexivity.
Qed.

Lemma init_unresolved_creates_nothing_witness :
  exists w' evs,
    filter_plugin_init_fn Edge.not_invocable Demo.config
      (Some Demo.out_handle) (Some Demo.out_stream) Demo.loaded = Ret None w'
    /\ trace w' = trace Demo.loaded ++ evs
    /\ next_obj w' = next_obj Demo.loaded
    /\ count is_fatal evs = 1.
Proof.
  destruct (init_unresolved_creates_nothing Edge.not_invocable Demo.loaded
              Demo.config (Some Demo.out_handle) (Some Demo.out_stream)
              Demo.shim eq_refl eq_refl)
    as (w' & evs & Hret & Htrace & Hnext & _ & _ & _ & Hfatal & _).
  exists w', evs. repeat split; assumption.
Defined.


(** ** The successful ingest *)




(** ** What the dispatchers leave alone *)

Lemma init_frame (E : Env) (w : World) (config : ConfigCategory)
    (outHandle output : option addr) :
  let w' := final_world (filter_plugin_init_fn E config outHandle output w) in
  pModule w' = pModule w
  /\ sPluginName w' = sPluginName w
  /\ sys_path w' = sys_path w
  /\ heap w' = heap w.
Proof.
  init_cases E w config outHandle output; run.
  all: wsimpl; repeat split; congruence.
Qed.




(** ** The error indicator across a call *)




(** ** When the script is called *)




(** ** Init, then ingest *)

(** X8: The handle that a successful init returns can be passed straight to
    ingest: in the world init leaves, with the same script, ingest of a live
    batch returns, and the one call it makes into the script passes that
    handle first and, second, a newly allocated list holding the batch's
    records in marshalled form; the batch is gone afterwards. *)
Theorem init_then_ingest (E : Env) (w : World) (m f_init f_ingest h : PyObj)
    (config : ConfigCategory) (outHandle output : option addr)
    (data : addr) (rs : list Reading) :
  pModule w = Some m ->
  getattr E m "plugin_init" = Some f_init ->
  callable E f_init = true ->
  invoke E f_init (init_args w config outHandle output) = Some h ->
  getattr E m "plugin_ingest" = Some f_ingest ->
  callable E f_ingest = true ->
  heap w !! data = Some rs ->
  exists w1 w2 evs,
    filter_plugin_init_fn E config outHandle output w = Ret (Some h) w1
    /\ filter_plugin_ingest_fn E (Some h) data w1 = Ret tt w2
    /\ trace w2 = trace w1 ++ evs
    /\ List.filter is_call evs
       = [EvPy (E_PyObject_CallFunction f_ingest "OO"
                  [CObj (Some h); CObj (Some (next_obj w1))])]
    /\ py_objects w2 !! next_obj w1
       = Some (PyList (toScriptRepresentation rs))
    /\ heap w2 !! data = None.
Proof.
  intros Hm Hattr_init Hcall_init Hinv Hattr Hcall Hlive.
  destruct (init_success E w m f_init h config outHandle output
              Hm Hattr_init Hcall_init Hinv) as [w1 Hinit].
  pose proof (init_frame E w config outHandle output) as Hframe.
  rewrite Hinit in Hframe. cbn [final_world] in Hframe.
  destruct Hframe as (Hm1 & _ & _ & Hheap1).
  rewrite Hm in Hm1. rewrite <- Hheap1 in Hlive. clear Hheap1.
  assert (exists w2 evs,
    filter_plugin_ingest_fn E (Some h) data w1 = Ret tt w2
    /\ trace w2 = trace w1 ++ evs
    /\ List.filter is_call evs
       = [EvPy (E_PyObject_CallFunction f_ingest "OO"
                  [CObj (Some h); CObj (Some (next_obj w1))])]
    /\ py_objects w2 !! next_obj w1
       = Some (PyList (toScriptRepresentation rs))
    /\ heap w2 !! data = None) as (w2 & evs & Hrun).
  { state_cases w1.
    all: destruct (call E f_ingest [CObj (Some h); CObj (Some (next_obj w1))])
      as [r|] eqn:Hr.
    all: run; eexists _, _; (split; [reflexivity|]); wsimpl; flatten_trace.
    all: do 2 (split; [reflexivity|]).
    all: split; [apply lookup_insert_eq | apply lookup_delete_eq]. }
  exists w1, w2, evs. split; [exact Hinit | exact Hrun].
Qed.

Lemma init_then_ingest_witness :
  exists w1 w2,
    filter_plugin_init_fn (Demo.env None None (Some Demo.handle)) Demo.config
      (Some Demo.out_handle) (Some Demo.out_stream) Demo.loaded
    = Ret (Some Demo.handle) w1
    /\ filter_plugin_ingest_fn (Demo.env None None (Some Demo.handle))
         (Some Demo.handle) Demo.batch w1 = Ret tt w2
    /\ heap w2 !! Demo.batch = None.
Proof.
  destruct (init_then_ingest (Demo.env None None (Some Demo.handle))
              Demo.loaded Demo.shim Demo.init_callable Demo.ingest_callable
              Demo.handle Demo.config (Some Demo.out_handle)
              (Some Demo.out_stream) Demo.batch Demo.readings
              eq_refl eq_refl eq_refl eq_refl eq_refl eq_refl eq_refl)
    as (w1 & w2 & evs & Hinit & Hingest & _ & _ & _ & Hgone).
  exists w1, w2. repeat split; assumption.
Defined.


(** ** More on start-up *)








Lemma substring_at_end (s : string) : substring (String.length s) 0 s = "".
Proof.
  induction s as [|a s IH]; [reflexivity|].
  change (substring (String.length s) 0 s = ""). exact IH.
Qed.

(** What follows the last slash of the shim path is nothing: the path ends
    in its slash. *)
Lemma substr_script_empty (root : string) :
  (str_size (root +:+ SHIM_SCRIPT_REL_PATH) < size_t_modulus)%N ->
  substr (root +:+ SHIM_SCRIPT_REL_PATH)
    (size_t_add (find_last_of (root +:+ SHIM_SCRIPT_REL_PATH) "/") 1) npos
  = Some "".
Proof.
  set (dir := root +:+ "/python/foglamp/plugins/common/shim").
  assert (root +:+ SHIM_SCRIPT_REL_PATH = dir +:+ "/") as ->
    by (unfold dir; now rewrite append_assoc).
  intros Hsize.
  assert (str_size (dir +:+ "/") = (str_size dir + 1)%N) as Hlen
    by (unfold str_size; rewrite length_append; cbn [String.length]; lia).
  unfold find_last_of. rewrite find_last_from_snoc.
  assert (size_t_add (0 + str_size dir) 1 = str_size (dir +:+ "/")) as ->
    by (unfold size_t_add; rewrite N.mod_small; lia).
  unfold substr. rewrite N.ltb_irrefl. f_equal.
  rewrite N.sub_diag, N.min_r by lia.
  unfold str_size. rewrite Nat2N.id. apply substring_at_end.
Qed.

(** X11: When the import fails, the one fatal entry of start-up carries the shim
    name, the shim path with its final slash, an empty script name (the
    part of the path behind its last slash), the shim directory and the
    plugin name, in this order. *)
Theorem startup_failure_log (E : Env) (w : World)
    (pluginName pluginPathName root : string) :
  getenv E "FOGLAMP_ROOT" = Some root ->
  (str_size (root +:+ SHIM_SCRIPT_REL_PATH) < size_t_modulus)%N ->
  import_module E
    (sys_path w ++ [root +:+ "/python/foglamp/plugins/common/shim";
                    root +:+ "/python"]) SHIM_SCRIPT_NAME = None ->
  exists w' evs fmt,
    PluginInterfaceInit E pluginName pluginPathName w = Ret None w'
    /\ trace w' = trace w ++ evs
    /\ List.filter is_fatal evs
       = [EvLog Fatal fmt
            [LStr "filter_shim";
             LStr (root +:+ "/python/foglamp/plugins/common/shim/");
             LStr "";
             LStr (root +:+ "/python/foglamp/plugins/common/shim");
             LStr pluginName]].
Proof.
  intros Hroot Hsize Hfail.
  pose proof (substr_script_empty root Hsize) as Hempty.
  pose proof (substr_shim_dir root) as Hdir.
  replace (sys_path w ++ [root +:+ "/python/foglamp/plugins/common/shim";
                          root +:+ "/python"])
    with ((sys_path w ++ [root +:+ "/python/foglamp/plugins/common/shim"])
            ++ [root +:+ "/python"]) in Hfail
    by (now rewrite <- app_assoc).
  unfold_bridge; wsimpl;
    repeat (first [step | rewrite lookup_insert_eq]; wsimpl).
  eexists _, _, _; (split; [reflexivity|]); wsimpl; flatten_trace.
  split; reflexivity.
Qed.

Lemma startup_failure_log_witness :
  exists w' evs fmt,
    PluginInterfaceInit (Demo.env (Some "/usr/local/foglamp") None None)
      "scale" "/usr/local/foglamp/python/foglamp/plugins/filter/scale"
      Demo.unloaded = Ret None w'
    /\ trace w' = trace Demo.unloaded ++ evs
    /\ List.filter is_fatal evs
       = [EvLog Fatal fmt
            [LStr "filter_shim";
             LStr "/usr/local/foglamp/python/foglamp/plugins/common/shim/";
             LStr "";
             LStr "/usr/local/foglamp/python/foglamp/plugins/common/shim";
             LStr "scale"]].
Proof.
  exact (startup_failure_log
           (Demo.env (Some "/usr/local/foglamp") None None) Demo.unloaded
           "scale" "/usr/local/foglamp/python/foglamp/plugins/filter/scale"
           "/usr/local/foglamp" eq_refl eq_refl eq_refl).
Defined.

